(** * Safety filter node (crazyflie_refinecbf/safety_filter.py, config.py)

    A shallow embedding of the [SafetyFilter] node: its attributes, its three
    callbacks ([timer_callback], [cbf_sub_callback],
    [nom_policy_sub_callback]) and the shutdown sequence of [main].

    Python floats that the node only stores and forwards are rationals.
    Third-party calls (grid interpolation, the ASIF corrector, the wall
    clock) are section variables.  Every callback is a computation in a
    state-and-exception monad that also emits the list of its externally
    visible events, in program order; the effects of a callback that ends in
    an exception are kept up to the raising statement. *)

From Stdlib Require Import List String Bool Arith QArith Lia.
Import ListNotations.
Open Scope string_scope.
Open Scope list_scope.

(** ** Data *)

(** A numpy array as it is stored on disk and in [vf_table]: its shape and
    its entries in row-major order. *)
Record ndarray := mk_ndarray { shape : list nat; data : list Q }.

(** [self.state]: the three components read as [state[0]], [state[1]],
    [state[2]].  The node has no callback that assigns it. *)
Record State := mk_state { st_x : Q; st_y : Q; st_theta : Q }.

Record Vector3 := mk_vec { vx : Q; vy : Q; vz : Q }.
Record Twist := mk_twist { linear : Vector3; angular : Vector3 }.

(** What a call into the corrector can hand back to Python code.  An array
    entry is [Some x] for a number and [None] for the object [None]; a row
    with a [None] entry has dtype object. *)
Inductive pyval :=
| PyNone
| PyBool (b : bool)
| PyFloat (x : Q)
| PyRow (r : list (option Q))
| PyMat (m : list (list (option Q))).

Inductive exn :=
| TypeError | AttributeError | IndexError | NameError
| FileNotFoundError | KeyboardInterrupt | RuntimeError.

Definition exn_eqb (a b : exn) : bool :=
  match a, b with
  | TypeError, TypeError | AttributeError, AttributeError
  | IndexError, IndexError | NameError, NameError
  | FileNotFoundError, FileNotFoundError
  | KeyboardInterrupt, KeyboardInterrupt | RuntimeError, RuntimeError => true
  | _, _ => false
  end.

(** One row of the telemetry store, the keyword arguments of
    [data_logger.append]. *)
Record Telemetry := mk_telemetry {
  t_x : Q; t_y : Q; t_theta : Q; t_safety_value : Q;
  t_v : pyval; t_omega : pyval; t_v_nom : Q; t_omega_nom : Q }.

(** Arguments of a formatted log line. *)
Inductive logarg :=
| ANone
| ANum (x : Q)
| AState (s : State)
| APolicy (p : Q * Q)
| AVal (v : pyval).

(** Externally visible acts, in the order the program performs them. *)
Inductive event :=
| EvLogInfo (fmt : string) (a : logarg)            (* rospy.loginfo *)
| EvPrint (fmt : string) (a : logarg)              (* print *)
| EvPubSafety (v : Q)                              (* safety_value_publisher_.publish *)
| EvAsifCall (tbl : ndarray) (s : State) (t : Q) (nom : list (list Q))
| EvPubCmd (m : Twist)                             (* cmd_vel_publisher_.publish *)
| EvLogConfig (file : string)                      (* logging.basicConfig *)
| EvLogDebug (fmt : string) (a : logarg)           (* logging.debug *)
| EvAppend (r : Telemetry)                         (* data_logger.append *)
| EvSaveData (file : string) (rs : list Telemetry) (* data_logger.save_data *)
| EvDestroyNode.                                   (* destroy_node *)

Inductive file :=
| FNpy (a : ndarray)
| FData (rs : list Telemetry).

Definition Files := string -> option file.

Definition write_file (fs : Files) (name : string) (f : file) : Files :=
  fun n => if String.eqb n name then Some f else fs n.

(** ** Configuration (config.py) *)

Record Config := mk_config {
  USE_REFINECBF : bool;
  GRID_RESOLUTION : list nat;
  INITIAL_STATE : State;
  INITIAL_CBF : ndarray;
  U_MIN : Q * Q;
  U_MAX : Q * Q;
  GAMMA : Q;
  PRECOMPUTED_CBF_FILENAME : string;
  (* the assignment of DATA_FILENAME is commented out in config.py; the name
     is bound only if the star import of refine_cbf.utils binds it *)
  DATA_FILENAME : option string;
  (* refine_cbf.utils.create_shutdown_message() *)
  create_shutdown_message : Twist;
  (* numpy before 2.0 reduces [any] over an object array with Python's
     [or] and returns an operand; from 2.0 on it returns a bool *)
  numpy_any_returns_operand : bool }.

(** The values config.py assigns, for a given tabulated initial CBF. *)
Definition shipped (initial_cbf : ndarray) (stop : Twist) (legacy : bool) : Config :=
  {| USE_REFINECBF := true;
     GRID_RESOLUTION := [61; 61; 61]%nat;
     INITIAL_STATE := mk_state (1 # 2) 1 0;
     INITIAL_CBF := initial_cbf;
     U_MIN := (0, 0);
     U_MAX := (1, 1);
     GAMMA := 1 # 4;
     PRECOMPUTED_CBF_FILENAME := "./precomputed_cbf.npy";
     DATA_FILENAME := None;
     create_shutdown_message := stop;
     numpy_any_returns_operand := legacy |}.

(** ** Node attributes and the world around them *)

Record SafetyFilter := mk_node {
  vf_table : ndarray;              (* self.tabular_cbf.vf_table *)
  cbf : option ndarray;            (* self.cbf, unset until a table is loaded *)
  state : State;                   (* self.state *)
  nominal_policy : Q * Q;          (* self.nominal_policy *)
  safety_value : option Q;         (* self.safety_value, unset before the first cycle *)
  data_logger : list Telemetry }.  (* self.data_logger *)

Record World := mk_world {
  node : SafetyFilter;
  fs : Files;
  ticks : nat }.                   (* number of time.time() calls so far *)

(** ** The monad: state, exceptions, emitted events *)

Definition M (A : Type) : Type := World -> (exn + A) * World * list event.

Definition ret {A} (a : A) : M A := fun w => (inr a, w, []).

Definition bind {A B} (m : M A) (f : A -> M B) : M B :=
  fun w =>
    match m w with
    | (inl e, w1, t1) => (inl e, w1, t1)
    | (inr a, w1, t1) =>
        match f a w1 with
        | (r, w2, t2) => (r, w2, t1 ++ t2)
        end
    end.

Definition raise {A} (e : exn) : M A := fun w => (inl e, w, []).
Definition emit (e : event) : M unit := fun w => (inr tt, w, [e]).
Definition get_node : M SafetyFilter := fun w => (inr (node w), w, []).
Definition set_node (n : SafetyFilter) : M unit :=
  fun w => (inr tt, mk_world n (fs w) (ticks w), []).

(** [try: m except e: h] *)
Definition try_except {A} (m : M A) (e : exn) (h : M A) : M A :=
  fun w =>
    match m w with
    | (inl e', w1, t1) =>
        if exn_eqb e' e
        then match h w1 with (r, w2, t2) => (r, w2, t1 ++ t2) end
        else (inl e', w1, t1)
    | (inr a, w1, t1) => (inr a, w1, t1)
    end.

(** [try: m finally: f] *)
Definition try_finally {A} (m : M A) (f : M unit) : M A :=
  fun w =>
    match m w with
    | (r, w1, t1) =>
        match f w1 with
        | (inl e, w2, t2) => (inl e, w2, t1 ++ t2)
        | (inr _, w2, t2) => (r, w2, t1 ++ t2)
        end
    end.

Declare Scope py_scope.
Delimit Scope py_scope with py.
Notation "x <- m ;; k" := (bind m (fun x => k))
  (at level 61, m at next level, right associativity) : py_scope.
Notation "m ;; k" := (bind m (fun _ => k))
  (at level 61, right associativity) : py_scope.
Open Scope py_scope.

(** ** numpy and builtins used by the node

    Each returns its value or the exception Python raises. *)

Definition lift {A} (r : exn + A) : M A := fun w => (r, w, []).

Definition entry_val (e : option Q) : pyval :=
  match e with Some x => PyFloat x | None => PyNone end.

(** [a[0]] *)
Definition getitem0 (v : pyval) : exn + pyval :=
  match v with
  | PyMat (r :: _) => inr (PyRow r)
  | PyRow (e :: _) => inr (entry_val e)
  | PyMat [] | PyRow [] => inl IndexError
  | PyBool _ | PyFloat _ => inl IndexError
  | PyNone => inl TypeError
  end.

(** [a[i, j]] *)
Definition getitem2 (v : pyval) (i j : nat) : exn + pyval :=
  match v with
  | PyMat m =>
      match nth_error m i with
      | Some r =>
          match nth_error r j with
          | Some e => inr (entry_val e)
          | None => inl IndexError
          end
      | None => inl IndexError
      end
  | PyRow _ | PyBool _ | PyFloat _ => inl IndexError
  | PyNone => inl TypeError
  end.

Definition nonzero (x : Q) : bool := negb (Qeq_bool x 0).

Definition truthy (e : option Q) : bool :=
  match e with Some x => nonzero x | None => false end.

Definition is_object_row (r : list (option Q)) : bool :=
  existsb (fun e => match e with None => true | Some _ => false end) r.

(** Python's [acc or e1 or e2 ...] over the entries. *)
Fixpoint or_reduce (acc : option Q) (r : list (option Q)) : option Q :=
  match r with
  | [] => acc
  | e :: r' => if truthy acc then acc else or_reduce e r'
  end.

(** [any] over the entries of an array: a bool for a numeric array; for an
    object array the operand Python's [or] selects when [legacy], a bool
    otherwise. *)
Definition any_entries (legacy : bool) (r : list (option Q)) : pyval :=
  if is_object_row r && legacy
  then match r with
       | [] => PyBool false
       | e :: r' => entry_val (or_reduce e r')
       end
  else PyBool (existsb truthy r).

(** [x.any()] *)
Definition py_any (legacy : bool) (v : pyval) : exn + pyval :=
  match v with
  | PyNone => inl AttributeError
  | PyBool b => inr (PyBool b)
  | PyFloat x => inr (PyBool (nonzero x))
  | PyRow r => inr (any_entries legacy r)
  | PyMat m => inr (any_entries legacy (List.concat m))
  end.

(** [x is None] *)
Definition is_none (v : pyval) : bool :=
  match v with PyNone => true | _ => false end.

(** [float(x)] *)
Definition py_float (v : pyval) : exn + Q :=
  match v with
  | PyFloat x => inr x
  | PyBool b => inr (if b then 1 else 0)
  | PyRow [Some x] | PyMat [[Some x]] => inr x
  | _ => inl TypeError
  end.

(** [np.reshape(p, (1, control_dims))] for the two-entry policy vector of a
    two-input (v, omega) dynamics. *)
Definition reshape_1xn (p : Q * Q) : list (list Q) := [[fst p; snd p]].

(** [jnp.load(name)] *)
Definition jnp_load (name : string) : M ndarray :=
  fun w =>
    match fs w name with
    | Some (FNpy a) => (inr a, w, [])
    | _ => (inl FileNotFoundError, w, [])
    end.

(** ** The node (safety_filter.py)

    Format strings are kept without their inner quotation marks. *)

Section Node.

Variable cfg : Config.
(** [self.grid.interpolate(table, state)] of hj_reachability, on a table of
    the grid's shape.  The exception the library raises for a table of
    another shape is not modelled. *)
Variable interpolate : ndarray -> State -> Q.
(** [self.diffdrive_asif(state, time, nominal)] of cbf_opt.  The corrector
    holds a reference to [self.tabular_cbf], so it always sees the table
    that is installed when it is called. *)
Variable asif : ndarray -> State -> Q -> list (list Q) -> pyval.
(** Reading of the wall clock at the k-th call of [time.time()]. *)
Variable wall : nat -> Q.

Definition time_time : M Q :=
  fun w => (inr (wall (ticks w)), mk_world (node w) (fs w) (S (ticks w)), []).

Definition modify_node (f : SafetyFilter -> SafetyFilter) : M unit :=
  n <- get_node ;; set_node (f n).

Definition set_safety_value (v : Q) (n : SafetyFilter) : SafetyFilter :=
  mk_node (vf_table n) (cbf n) (state n) (nominal_policy n) (Some v) (data_logger n).

Definition set_nominal_policy (p : Q * Q) (n : SafetyFilter) : SafetyFilter :=
  mk_node (vf_table n) (cbf n) (state n) p (safety_value n) (data_logger n).

Definition set_cbf (c : ndarray) (n : SafetyFilter) : SafetyFilter :=
  mk_node (vf_table n) (Some c) (state n) (nominal_policy n) (safety_value n) (data_logger n).

Definition set_vf_table (c : ndarray) (n : SafetyFilter) : SafetyFilter :=
  mk_node c (cbf n) (state n) (nominal_policy n) (safety_value n) (data_logger n).

Definition logger_append (r : Telemetry) (n : SafetyFilter) : SafetyFilter :=
  mk_node (vf_table n) (cbf n) (state n) (nominal_policy n) (safety_value n)
          (data_logger n ++ [r]).

(** Reading [self.safety_value]. *)
Definition get_safety_value : M Q :=
  n <- get_node ;;
  match safety_value n with
  | Some v => ret v
  | None => raise AttributeError
  end.

(** [SafetyFilter.__init__]: the attribute assignments.  Creating the
    publishers, the timer and the subscriptions is transport set-up and has
    no counterpart here. *)
Definition SafetyFilter_init (files : Files) : exn + SafetyFilter :=
  if USE_REFINECBF cfg
  then inr (mk_node (INITIAL_CBF cfg) None (INITIAL_STATE cfg)
                    (fst (U_MIN cfg), 0) None [])
  else match files (PRECOMPUTED_CBF_FILENAME cfg) with
       | Some (FNpy c) =>
           inr (mk_node c (Some c) (INITIAL_STATE cfg)
                        (fst (U_MIN cfg), 0) None [])
       | _ => inl FileNotFoundError
       end.

Definition publish_safety_value : M unit :=
  n <- get_node ;;
  let v := interpolate (vf_table n) (state n) in
  modify_node (set_safety_value v) ;;
  emit (EvPubSafety v) ;;
  emit (EvLogInfo "Publishing safety value: %s" (ANum v)).

(** The control that replaces the corrector's output on a detected failure. *)
Definition fallback_control : pyval := PyMat [[Some (fst (U_MIN cfg)); Some 0]].

Definition twist_of (v omega : Q) : Twist :=
  mk_twist (mk_vec v 0 0) (mk_vec 0 0 omega).

Definition timer_callback : M unit :=
  ctrl_start_time <- time_time ;;
  publish_safety_value ;;
  start_time <- time_time ;;
  n <- get_node ;;
  let nominal := reshape_1xn (nominal_policy n) in
  emit (EvAsifCall (vf_table n) (state n) 0 nominal) ;;
  let control_input := asif (vf_table n) (state n) 0 nominal in
  t1 <- time_time ;;
  emit (EvPrint "CBF-QP solved in %s seconds" (ANum (t1 - start_time))) ;;
  emit (EvPrint "Filtered Control Input:" (AVal control_input)) ;;
  row <- lift (getitem0 control_input) ;;
  a <- lift (py_any (numpy_any_returns_operand cfg) row) ;;
  control_input <-
    (if is_none a
     then
       emit (EvPrint "QP solver failed: Returned None" ANone) ;;
       emit (EvLogConfig "qp_failure.log") ;;
       t2 <- time_time ;;
       emit (EvLogDebug "Time of Occurrence: %s" (ANum t2)) ;;
       emit (EvLogDebug "QP solver failed: Returned None" ANone) ;;
       n <- get_node ;;
       emit (EvLogDebug "State: %s" (AState (state n))) ;;
       sv <- get_safety_value ;;
       emit (EvLogDebug "Safety Value: %s" (ANum sv)) ;;
       emit (EvLogDebug "Nominal Policy: %s" (APolicy (nominal_policy n))) ;;
       ret fallback_control
     else ret control_input) ;;
  c00 <- lift (getitem2 control_input 0 0) ;;
  lx <- lift (py_float c00) ;;
  c01 <- lift (getitem2 control_input 0 1) ;;
  az <- lift (py_float c01) ;;
  emit (EvPubCmd (twist_of lx az)) ;;
  emit (EvLogInfo "Publishing optimal safe control input over topic /ref" ANone) ;;
  t3 <- time_time ;;
  emit (EvPrint "Time to run safety filter: %s seconds" (ANum (t3 - ctrl_start_time))) ;;
  n <- get_node ;;
  sv <- get_safety_value ;;
  v <- lift (getitem2 control_input 0 0) ;;
  omega <- lift (getitem2 control_input 0 1) ;;
  let r := mk_telemetry (st_x (state n)) (st_y (state n)) (st_theta (state n)) sv
                        v omega (fst (nominal_policy n)) (snd (nominal_policy n)) in
  modify_node (logger_append r) ;;
  emit (EvAppend r).

Definition cbf_sub_callback (msg_data : bool) : M unit :=
  if USE_REFINECBF cfg
  then
    if msg_data
    then
      emit (EvLogInfo "New CBF is available, loading new CBF" ANone) ;;
      c <- jnp_load "./log/cbf.npy" ;;
      modify_node (set_cbf c) ;;
      modify_node (set_vf_table c)
      (* self.diffdrive_asif.cbf = self.tabular_cbf rebinds the same object *)
    else ret tt
  else ret tt.

Definition nom_policy_sub_callback (msg : Twist) : M unit :=
  emit (EvLogInfo "Received new high-level controller command." ANone) ;;
  modify_node (set_nominal_policy (vx (linear msg), vz (angular msg))) ;;
  n <- get_node ;;
  emit (EvPrint "Current Nominal Policy: " (APolicy (nominal_policy n))).

(** ** Dispatch and shutdown ([main]) *)

(** What the executor delivers to the node while it spins. *)
Inductive message :=
| Timer
| CbfAvailability (data : bool)
| NomPolicy (msg : Twist).

Definition dispatch (m : message) : M unit :=
  match m with
  | Timer => timer_callback
  | CbfAvailability b => cbf_sub_callback b
  | NomPolicy msg => nom_policy_sub_callback msg
  end.

(** [spin()]: the callbacks of the delivered messages run one after the
    other; an exception of a callback ends the spin; after the last message
    the spin returns ([None]) or is ended by an exception ([Some e],
    [KeyboardInterrupt] for CTRL+C). *)
Fixpoint spin (sched : list message) (stop : option exn) : M unit :=
  match sched with
  | [] => match stop with None => ret tt | Some e => raise e end
  | m :: sched' => dispatch m ;; spin sched' stop
  end.

Definition save_data (name : string) : M unit :=
  fun w =>
    let rs := data_logger (node w) in
    (inr tt, mk_world (node w) (write_file (fs w) name (FData rs)) (ticks w),
     [EvSaveData name rs]).

(** Evaluating the global name [DATA_FILENAME]. *)
Definition lookup_DATA_FILENAME : M string :=
  match DATA_FILENAME cfg with
  | Some f => ret f
  | None => raise NameError
  end.

Definition shutdown_motors : M unit :=
  emit (EvPubCmd (create_shutdown_message cfg)).

(** The three blocks of the [try] statement of [main]; [spinning] is what
    [rospy.spin()] does until it returns or an exception leaves it. *)
Definition main_try_body (spinning : M unit) : M unit :=
  emit (EvLogInfo "Starting safety filter node, shut down with CTRL+C" ANone) ;;
  spinning.

Definition main_except_body : M unit :=
  emit (EvLogInfo "Keyboard interrupt, shutting down." ANone) ;;
  shutdown_motors ;;
  f <- lookup_DATA_FILENAME ;;
  save_data f.

Definition main_finally_body : M unit :=
  shutdown_motors ;;
  emit EvDestroyNode.

(** The [try]/[except KeyboardInterrupt]/[finally] statement of [main], run
    on the constructed node. *)
Definition main_try (spinning : M unit) : M unit :=
  try_finally
    (try_except (main_try_body spinning) KeyboardInterrupt main_except_body)
    main_finally_body.

Definition main (files : Files) (sched : list message) (stop : option exn)
  : (exn + unit) * option World * list event :=
  match SafetyFilter_init files with
  | inl e => (inl e, None, [])
  | inr n =>
      match main_try (spin sched stop) (mk_world n files 0) with
      | (r, w, t) => (r, Some w, t)
      end
  end.

End Node.

(** ** Observations on a run *)

Definition result_of {A} (x : (exn + A) * World * list event) : exn + A := fst (fst x).
Definition world_of {A} (x : (exn + A) * World * list event) : World := snd (fst x).
Definition events_of {A} (x : (exn + A) * World * list event) : list event := snd x.

(** The messages sent on the control topic, oldest first. *)
Fixpoint published_controls (t : list event) : list Twist :=
  match t with
  | [] => []
  | EvPubCmd m :: t' => m :: published_controls t'
  | _ :: t' => published_controls t'
  end.

(** The lines written through [logging.debug]. *)
Fixpoint failure_records (t : list event) : list (string * logarg) :=
  match t with
  | [] => []
  | EvLogDebug f a :: t' => (f, a) :: failure_records t'
  | _ :: t' => failure_records t'
  end.

(** The files written by [save_data]. *)
Fixpoint saves (t : list event) : list (string * list Telemetry) :=
  match t with
  | [] => []
  | EvSaveData f rs :: t' => (f, rs) :: saves t'
  | _ :: t' => saves t'
  end.

(** The four steps of a cycle among all its events. *)
Definition is_step (e : event) : bool :=
  match e with
  | EvPubSafety _ | EvAsifCall _ _ _ _ | EvPubCmd _ | EvAppend _ => true
  | _ => false
  end.

Definition steps (t : list event) : list event := filter is_step t.

(** Whether the check [control_input[0].any() is None] holds for a first
    row. *)
Definition row_flagged (cfg : Config) (row : list (option Q)) : bool :=
  is_none (any_entries (numpy_any_returns_operand cfg) row).

(** The entries [0, 0] and [0, 1] of the control a cycle ends up with, for
    the first row of the corrector's matrix: the fallback when the row is
    flagged, the row's first two numbers otherwise. *)
Definition control_of_row (cfg : Config) (row : list (option Q)) : option (Q * Q) :=
  if row_flagged cfg row then Some (fst (U_MIN cfg), 0)
  else match row with
       | Some a :: Some b :: _ => Some (a, b)
       | _ => None
       end.

(** The policy held after a sequence of deliveries: the two components of
    the last nominal-policy message, the initial policy when there is
    none. *)
Definition latest_nominal (init : Q * Q) (sched : list message) : Q * Q :=
  fold_left
    (fun p m =>
       match m with
       | NomPolicy msg => (vx (linear msg), vz (angular msg))
       | _ => p
       end)
    sched init.

Definition is_nom_policy (m : message) : bool :=
  match m with NomPolicy _ => true | _ => false end.

Definition is_timer (m : message) : bool :=
  match m with Timer => true | _ => false end.

Definition interrupted (r : exn + unit) : bool :=
  match r with inl KeyboardInterrupt => true | _ => false end.

(** The values sent on the safety-value topic. *)
Fixpoint safety_values (t : list event) : list Q :=
  match t with
  | [] => []
  | EvPubSafety v :: t' => v :: safety_values t'
  | _ :: t' => safety_values t'
  end.

(** The calls of the corrector: installed table, state, time, nominal
    control. *)
Fixpoint corrector_calls (t : list event) : list (ndarray * State * Q * list (list Q)) :=
  match t with
  | [] => []
  | EvAsifCall tbl s tm nom :: t' => (tbl, s, tm, nom) :: corrector_calls t'
  | _ :: t' => corrector_calls t'
  end.

Definition no_nom_policy (sched : list message) : bool :=
  forallb (fun m => negb (is_nom_policy m)) sched.

(** ** Sample data *)

Definition zero_twist : Twist := mk_twist (mk_vec 0 0 0) (mk_vec 0 0 0).

(** A table of the configured resolution. *)
Definition table_61 : ndarray :=
  mk_ndarray [61; 61; 61]%nat (repeat (33 # 100) (61 * 61 * 61)).

(** A table of another shape. *)
Definition table_2 : ndarray :=
  mk_ndarray [2; 2; 2]%nat [1; 2; 3; 4; 5; 6; 7; 8].

Definition cfg_legacy : Config := shipped table_61 zero_twist true.
Definition cfg_numpy2 : Config := shipped table_61 zero_twist false.

(** The shipped configuration with the commented-out file name bound. *)
Definition cfg_logging : Config :=
  mk_config true [61; 61; 61]%nat (mk_state (1 # 2) 1 0) table_61 (0, 0) (1, 1)
            (1 # 4) "./precomputed_cbf.npy" (Some "./experiment_dataset.txt")
            zero_twist true.

(** The shipped configuration with refinement switched off. *)
Definition cfg_precomputed : Config :=
  mk_config false [61; 61; 61]%nat (mk_state (1 # 2) 1 0) table_61 (0, 0) (1, 1)
            (1 # 4) "./precomputed_cbf.npy" None zero_twist true.

Definition no_files : Files := fun _ => None.

Definition files_new_cbf : Files := write_file no_files "./log/cbf.npy" (FNpy table_2).

Definition files_precomputed : Files :=
  write_file files_new_cbf "./precomputed_cbf.npy" (FNpy table_61).

Definition node_0 : SafetyFilter :=
  mk_node table_61 None (mk_state (1 # 2) 1 0) (0, 0) None [].

Definition world_0 : World := mk_world node_0 files_new_cbf 0.

Definition interpolate_0 (_ : ndarray) (_ : State) : Q := 33 # 100.
Definition wall_0 (k : nat) : Q := inject_Z (Z.of_nat k).

(** A corrector that hands back the nominal control. *)
Definition asif_nominal (_ : ndarray) (_ : State) (_ : Q) (nom : list (list Q)) : pyval :=
  PyMat (map (map Some) nom).

(** A corrector that hands back a row of [None]. *)
Definition asif_none_row (_ : ndarray) (_ : State) (_ : Q) (_ : list (list Q)) : pyval :=
  PyMat [[None; None]].

Definition twist_1 : Twist := mk_twist (mk_vec (1 # 5) 7 8) (mk_vec 9 10 (1 # 2)).
Definition twist_2 : Twist := mk_twist (mk_vec (1 # 10) 0 0) (mk_vec 0 0 (-(1 # 4))).

(** The node after a nominal-policy message. *)
Definition node_1 : SafetyFilter :=
  mk_node table_61 None (mk_state (1 # 2) 1 0) (1 # 5, 1 # 2) None [].

Definition world_1 : World := mk_world node_1 files_new_cbf 0.

(** The node as constructed from the precomputed file. *)
Definition node_precomputed : SafetyFilter :=
  mk_node table_61 (Some table_61) (mk_state (1 # 2) 1 0) (0, 0) None [].

Definition sched_demo : list message :=
  [Timer; NomPolicy twist_1; Timer; NomPolicy twist_2; CbfAvailability false].

(** Spins on the sample data. *)
Definition spin_idle_interrupted : M unit :=
  spin cfg_legacy interpolate_0 asif_nominal wall_0 [] (Some KeyboardInterrupt).

Definition spin_cycle_returns : M unit :=
  spin cfg_logging interpolate_0 asif_nominal wall_0 [Timer] None.

Definition spin_cycles_interrupted : M unit :=
  spin cfg_logging interpolate_0 asif_nominal wall_0 [Timer; Timer]
       (Some KeyboardInterrupt).

(** ** Further observations and sample data *)

(** An entry Python takes for false: [None] or the number 0. *)
Definition falsy (e : option Q) : bool := negb (truthy e).

Definition last_is_none (row : list (option Q)) : bool :=
  match List.last row (Some 0) with
  | None => true
  | Some _ => false
  end.

Definition is_true_notice (m : message) : bool :=
  match m with CbfAvailability true => true | _ => false end.

(** A corrector whose first row has a number and then [None]. *)
Definition asif_half_row (_ : ndarray) (_ : State) (_ : Q) (_ : list (list Q)) : pyval :=
  PyMat [[Some 1; None]].

(** A corrector that hands back the zero control. *)
Definition asif_zero (_ : ndarray) (_ : State) (_ : Q) (_ : list (list Q)) : pyval :=
  PyMat [[Some 0; Some 0]].

Definition world_no_files : World := mk_world node_0 no_files 0.

Definition sched_swap : list message :=
  [Timer; CbfAvailability false; NomPolicy twist_1; CbfAvailability true; Timer].

(** ** Properties of one cycle *)

Ltac run_monad :=
  cbv beta iota zeta delta
    [bind ret raise emit lift get_node set_node modify_node time_time
     publish_safety_value get_safety_value result_of world_of events_of];
  cbn [node fs ticks vf_table cbf state nominal_policy safety_value data_logger
       set_safety_value set_nominal_policy set_cbf set_vf_table logger_append
       fst snd app].

Ltac run_accessors :=
  cbn [getitem0 getitem2 py_any py_float entry_val is_none nth_error
       fallback_control fst snd app
       node fs ticks vf_table cbf state nominal_policy safety_value data_logger
       set_safety_value set_nominal_policy set_cbf set_vf_table logger_append].

Section Cycle.

Variable cfg : Config.
Variable interpolate : ndarray -> State -> Q.
Variable asif : ndarray -> State -> Q -> list (list Q) -> pyval.
Variable wall : nat -> Q.

(** Splits a cycle by what the corrector handed back: [None], a scalar, a
    one-dimensional array, or a matrix whose first row is flagged by the
    check or not. *)
Ltac cycle_cases F :=
  unfold timer_callback; run_monad;
  destruct (asif _ _ _ _) as [ | ? | ? | [ | [?|] ?] | [ | row rows] ];
  run_accessors;
  [ | | | | | | |
    fold (row_flagged cfg row);
    destruct (row_flagged cfg row) eqn:F;
    [ | destruct row as [ | [?|] [ | [?|] ?] ] ];
    run_accessors ].

(** A numeric row is never flagged: [any] of a float array is a bool. *)
Lemma numeric_row_not_flagged (row : list Q) :
  row_flagged cfg (map Some row) = false.
Proof.
  unfold row_flagged, any_entries.
  assert (H : is_object_row (map Some row) = false).
  { induction row as [ | x row IH]; [reflexivity | exact IH]. }
  rewrite H. reflexivity.
Qed.

(** With a numpy whose [any] yields a bool for object arrays, no row is
    flagged: the failure branch is never entered. *)
Lemma bool_any_never_flagged (row : list (option Q)) :
  numpy_any_returns_operand cfg = false -> row_flagged cfg row = false.
Proof.
  intros H. unfold row_flagged, any_entries. rewrite H.
  rewrite andb_false_r. reflexivity.
Qed.

(** What the failure branch does when it is entered: the fallback control
    is sent and five lines go to the failure log. *)
Lemma flagged_row_falls_back (w : World) (row : list (option Q)) (rows : list (list (option Q))) :
  asif (vf_table (node w)) (state (node w)) 0 (reshape_1xn (nominal_policy (node w)))
    = PyMat (row :: rows) ->
  row_flagged cfg row = true ->
  result_of (timer_callback cfg interpolate asif wall w) = inr tt
  /\ published_controls (events_of (timer_callback cfg interpolate asif wall w))
     = [twist_of (fst (U_MIN cfg)) 0]
  /\ failure_records (events_of (timer_callback cfg interpolate asif wall w))
     = [("Time of Occurrence: %s", ANum (wall (S (S (S (ticks w))))));
        ("QP solver failed: Returned None", ANone);
        ("State: %s", AState (state (node w)));
        ("Safety Value: %s", ANum (interpolate (vf_table (node w)) (state (node w))));
        ("Nominal Policy: %s", APolicy (nominal_policy (node w)))].
Proof.
  intros H F. unfold timer_callback. run_monad. rewrite H. run_accessors.
  fold (row_flagged cfg row). rewrite F. repeat split.
Qed.

(** C9: every message a cycle sends on the control topic has linear.y,
    linear.z, angular.x and angular.y equal to 0, and its linear.x and
    angular.z are the float values of entries [0, 0] and [0, 1] of the
    cycle's control, which is the corrector's output or the fallback. *)
Theorem published_twist_components (w : World) (m : Twist) :
  In m (published_controls (events_of (timer_callback cfg interpolate asif wall w))) ->
  vy (linear m) = 0 /\ vz (linear m) = 0 /\ vx (angular m) = 0 /\ vy (angular m) = 0
  /\ exists u c00 c01,
       (u = asif (vf_table (node w)) (state (node w)) 0
                 (reshape_1xn (nominal_policy (node w)))
        \/ u = fallback_control cfg)
       /\ getitem2 u 0 0 = inr c00 /\ py_float c00 = inr (vx (linear m))
       /\ getitem2 u 0 1 = inr c01 /\ py_float c01 = inr (vz (angular m)).
Proof.
  cycle_cases F; cbn [published_controls In]; intros H;
    try contradiction; destruct H as [<- | []];
    repeat split.
  - exists (fallback_control cfg), (PyFloat (fst (U_MIN cfg))), (PyFloat 0).
    repeat split. right. reflexivity.
  - eexists _, _, _. split; [left; reflexivity | ]. repeat split.
Qed.

(** A cycle whose corrector hands back a matrix with a usable first row
    runs to its end and performs its four steps once each and in this
    order: it publishes the value interpolated from the installed table at
    the stored state, calls the corrector on the stored state and nominal
    policy, publishes the filtered or the fallback control, and appends one
    telemetry record. *)
Lemma usable_row_step_order
  (w : World) (row : list (option Q)) (rows : list (list (option Q))) (lx az : Q) :
  asif (vf_table (node w)) (state (node w)) 0 (reshape_1xn (nominal_policy (node w)))
    = PyMat (row :: rows) ->
  control_of_row cfg row = Some (lx, az) ->
  let sv := interpolate (vf_table (node w)) (state (node w)) in
  let r := mk_telemetry (st_x (state (node w))) (st_y (state (node w)))
                        (st_theta (state (node w))) sv (PyFloat lx) (PyFloat az)
                        (fst (nominal_policy (node w))) (snd (nominal_policy (node w))) in
  result_of (timer_callback cfg interpolate asif wall w) = inr tt
  /\ steps (events_of (timer_callback cfg interpolate asif wall w))
     = [EvPubSafety sv;
        EvAsifCall (vf_table (node w)) (state (node w)) 0
                   (reshape_1xn (nominal_policy (node w)));
        EvPubCmd (twist_of lx az);
        EvAppend r]
  /\ data_logger (node (world_of (timer_callback cfg interpolate asif wall w)))
     = data_logger (node w) ++ [r].
Proof.
  intros H C sv r. subst sv r. unfold control_of_row in C.
  unfold timer_callback. run_monad. rewrite H. run_accessors.
  fold (row_flagged cfg row).
  destruct (row_flagged cfg row).
  - injection C as <- <-. repeat split.
  - destruct row as [ | [a|] [ | [b|] rest] ]; try discriminate C.
    injection C as <- <-. repeat split.
Qed.


(** *** What a cycle leaves alone *)

Lemma timer_callback_lookup_and_call (w : World) :
  safety_values (events_of (timer_callback cfg interpolate asif wall w))
  = [interpolate (vf_table (node w)) (state (node w))]
  /\ corrector_calls (events_of (timer_callback cfg interpolate asif wall w))
     = [(vf_table (node w), state (node w), 0, reshape_1xn (nominal_policy (node w)))].
Proof. cycle_cases F; split; reflexivity. Qed.

Lemma timer_callback_frame (w : World) :
  let w' := world_of (timer_callback cfg interpolate asif wall w) in
  vf_table (node w') = vf_table (node w)
  /\ nominal_policy (node w') = nominal_policy (node w)
  /\ state (node w') = state (node w)
  /\ fs w' = fs w.
Proof. cycle_cases F; repeat split. Qed.

Lemma timer_callback_appends_one (w w' : World) (t : list event) :
  timer_callback cfg interpolate asif wall w = (inr tt, w', t) ->
  List.length (data_logger (node w')) = S (List.length (data_logger (node w))).
Proof.
  cycle_cases F; intros H; try discriminate H;
    injection H as <- _; run_accessors;
    rewrite length_app, Nat.add_comm; reflexivity.
Qed.

(** ** The other callbacks *)

Lemma nom_policy_sub_callback_spec (msg : Twist) (w : World) :
  nom_policy_sub_callback msg w
  = (inr tt,
     mk_world (set_nominal_policy (vx (linear msg), vz (angular msg)) (node w))
              (fs w) (ticks w),
     [EvLogInfo "Received new high-level controller command." ANone;
      EvPrint "Current Nominal Policy: " (APolicy (vx (linear msg), vz (angular msg)))]).
Proof. reflexivity. Qed.

Lemma cbf_sub_callback_disabled (data : bool) (w : World) :
  USE_REFINECBF cfg = false -> cbf_sub_callback cfg data w = (inr tt, w, []).
Proof. intros H. unfold cbf_sub_callback. rewrite H. reflexivity. Qed.

Lemma cbf_sub_callback_frame (data : bool) (w : World) :
  let w' := world_of (cbf_sub_callback cfg data w) in
  nominal_policy (node w') = nominal_policy (node w)
  /\ data_logger (node w') = data_logger (node w)
  /\ fs w' = fs w.
Proof.
  unfold cbf_sub_callback, jnp_load.
  destruct (USE_REFINECBF cfg), data; run_monad; try (repeat split; fail).
  destruct (fs w "./log/cbf.npy") as [ [c | rs] | ]; repeat split.
Qed.

(** A true notification with refinement enabled and a file that loads. *)
Lemma cbf_sub_callback_loaded (w : World) (tbl : ndarray) :
  USE_REFINECBF cfg = true ->
  fs w "./log/cbf.npy" = Some (FNpy tbl) ->
  cbf_sub_callback cfg true w
  = (inr tt,
     mk_world (set_vf_table tbl (set_cbf tbl (node w))) (fs w) (ticks w),
     [EvLogInfo "New CBF is available, loading new CBF" ANone]).
Proof.
  intros E L. unfold cbf_sub_callback, jnp_load. rewrite E. run_monad.
  rewrite L. reflexivity.
Qed.

(** C1 (as the code has it): with refinement enabled, a true notification
    installs whatever table the file holds, of any shape: the callback
    returns normally, after its log line, with that table as [vf_table] and
    as [self.cbf] and the rest of the node as it was. *)
Theorem cbf_sub_callback_installs_any_shape (w : World) (tbl : ndarray) :
  USE_REFINECBF cfg = true ->
  fs w "./log/cbf.npy" = Some (FNpy tbl) ->
  cbf_sub_callback cfg true w
  = (inr tt,
     mk_world (set_vf_table tbl (set_cbf tbl (node w))) (fs w) (ticks w),
     [EvLogInfo "New CBF is available, loading new CBF" ANone])
  /\ vf_table (node (world_of (cbf_sub_callback cfg true w))) = tbl.
Proof.
  intros E L. rewrite (cbf_sub_callback_loaded w tbl E L). split; reflexivity.
Qed.

(** ** Spinning *)

Lemma corrector_calls_app (t1 t2 : list event) :
  corrector_calls (t1 ++ t2) = corrector_calls t1 ++ corrector_calls t2.
Proof.
  induction t1 as [ | e t1 IH]; [reflexivity | ].
  destruct e; cbn [app corrector_calls]; rewrite IH; reflexivity.
Qed.

Lemma safety_values_app (t1 t2 : list event) :
  safety_values (t1 ++ t2) = safety_values t1 ++ safety_values t2.
Proof.
  induction t1 as [ | e t1 IH]; [reflexivity | ].
  destruct e; cbn [app safety_values]; rewrite IH; reflexivity.
Qed.

(** One delivery, on the attributes the claims are about. *)
Lemma dispatch_nominal (m : message) (w : World) :
  nominal_policy (node (world_of (dispatch cfg interpolate asif wall m w)))
  = latest_nominal (nominal_policy (node w)) [m].
Proof.
  destruct m as [ | data | msg]; cbn [dispatch latest_nominal fold_left].
  - apply timer_callback_frame.
  - apply cbf_sub_callback_frame.
  - rewrite nom_policy_sub_callback_spec. reflexivity.
Qed.

Lemma dispatch_disabled_frame (m : message) (w : World) :
  USE_REFINECBF cfg = false ->
  vf_table (node (world_of (dispatch cfg interpolate asif wall m w))) = vf_table (node w)
  /\ state (node (world_of (dispatch cfg interpolate asif wall m w))) = state (node w).
Proof.
  intros E. destruct m as [ | data | msg]; cbn [dispatch].
  - split; apply timer_callback_frame.
  - rewrite (cbf_sub_callback_disabled data w E). split; reflexivity.
  - rewrite nom_policy_sub_callback_spec. split; reflexivity.
Qed.

Lemma dispatch_lookups (m : message) (w : World) :
  Forall (fun c => c = (vf_table (node w), state (node w), 0,
                        reshape_1xn (nominal_policy (node w))))
         (corrector_calls (events_of (dispatch cfg interpolate asif wall m w)))
  /\ Forall (fun v => v = interpolate (vf_table (node w)) (state (node w)))
            (safety_values (events_of (dispatch cfg interpolate asif wall m w))).
Proof.
  destruct m as [ | data | msg]; cbn [dispatch].
  - destruct (timer_callback_lookup_and_call w) as [-> ->].
    split; repeat constructor.
  - unfold cbf_sub_callback, jnp_load.
    destruct (USE_REFINECBF cfg), data; run_monad; try (split; constructor; fail).
    destruct (fs w "./log/cbf.npy") as [ [c | rs] | ]; split; constructor.
  - rewrite nom_policy_sub_callback_spec. split; constructor.
Qed.

Lemma dispatch_logger (m : message) (w : World) :
  result_of (dispatch cfg interpolate asif wall m w) = inr tt ->
  List.length (data_logger (node (world_of (dispatch cfg interpolate asif wall m w))))
  = ((if is_timer m then 1 else 0) + List.length (data_logger (node w)))%nat.
Proof.
  destruct m as [ | data | msg]; cbn [dispatch is_timer]; intros R.
  - destruct (timer_callback cfg interpolate asif wall w) as [[r w'] t] eqn:T.
    cbn in R. subst r. apply (timer_callback_appends_one _ _ _ T).
  - cbn [Nat.add]. f_equal. apply cbf_sub_callback_frame.
  - rewrite nom_policy_sub_callback_spec. reflexivity.
Qed.

(** With refinement disabled, every lookup and every corrector call of a
    spin is made on the table the node started with. *)
Lemma spin_disabled_table (sched : list message) (stop : option exn) (w : World) :
  USE_REFINECBF cfg = false ->
  vf_table (node (world_of (spin cfg interpolate asif wall sched stop w))) = vf_table (node w)
  /\ Forall (fun c => fst (fst (fst c)) = vf_table (node w))
            (corrector_calls (events_of (spin cfg interpolate asif wall sched stop w)))
  /\ Forall (fun v => v = interpolate (vf_table (node w)) (state (node w)))
            (safety_values (events_of (spin cfg interpolate asif wall sched stop w))).
Proof.
  intros E. revert w.
  induction sched as [ | m sched IH]; intros w.
  - destruct stop; repeat split; constructor.
  - cbn [spin]. unfold bind.
    destruct (dispatch_disabled_frame m w E) as [Hv Hs].
    destruct (dispatch_lookups m w) as [Hc Hl].
    destruct (dispatch cfg interpolate asif wall m w) as [[[e | []] w1] t1].
    + unfold world_of, events_of in *. cbn [fst snd] in *.
      repeat split; [exact Hv | | exact Hl].
      eapply Forall_impl; [ | exact Hc]. intros c ->. reflexivity.
    + unfold world_of, events_of in Hv, Hs, Hc, Hl. cbn [fst snd] in Hv, Hs, Hc, Hl.
      specialize (IH w1). rewrite Hv, Hs in IH.
      destruct (spin cfg interpolate asif wall sched stop w1) as [[r w2] t2].
      unfold world_of, events_of in *. cbn [fst snd] in *.
      destruct IH as (IH1 & IH2 & IH3).
      rewrite corrector_calls_app, safety_values_app.
      repeat split; [exact IH1 | | ].
      * apply Forall_app. split; [ | exact IH2].
        eapply Forall_impl; [ | exact Hc]. intros c ->. reflexivity.
      * apply Forall_app. split; [exact Hl | exact IH3].
Qed.

(** A spin that returns has delivered every message: the node holds the
    policy of the last nominal-policy message and one telemetry record more
    for every timer delivery. *)
Lemma spin_returns (sched : list message) (w : World) :
  result_of (spin cfg interpolate asif wall sched None w) = inr tt ->
  nominal_policy (node (world_of (spin cfg interpolate asif wall sched None w)))
  = latest_nominal (nominal_policy (node w)) sched
  /\ List.length (data_logger (node (world_of (spin cfg interpolate asif wall sched None w))))
     = (List.length (filter is_timer sched) + List.length (data_logger (node w)))%nat.
Proof.
  revert w. induction sched as [ | m sched IH]; intros w.
  - intros _. split; reflexivity.
  - cbn [spin]. unfold bind.
    pose proof (dispatch_nominal m w) as Hn.
    pose proof (dispatch_logger m w) as Hd.
    destruct (dispatch cfg interpolate asif wall m w) as [[[e | []] w1] t1].
    + intros R. discriminate R.
    + unfold world_of, result_of in Hn, Hd. cbn [fst snd] in Hn, Hd.
      specialize (Hd eq_refl). specialize (IH w1).
      destruct (spin cfg interpolate asif wall sched None w1) as [[r w2] t2].
      unfold world_of, result_of in *. cbn [fst snd] in *.
      intros R. destruct (IH R) as [IH1 IH2]. split.
      * rewrite IH1, Hn. reflexivity.
      * rewrite IH2, Hd. cbn [filter].
        destruct (is_timer m); cbn [List.length]; lia.
Qed.

(** Ending a spin by an exception after the last delivery changes its
    result only. *)
Lemma spin_stopped (sched : list message) (e : exn) (w : World) :
  result_of (spin cfg interpolate asif wall sched None w) = inr tt ->
  spin cfg interpolate asif wall sched (Some e) w
  = (inl e, world_of (spin cfg interpolate asif wall sched None w),
     events_of (spin cfg interpolate asif wall sched None w)).
Proof.
  revert w. induction sched as [ | m sched IH]; intros w.
  - intros _. reflexivity.
  - cbn [spin]. unfold bind.
    destruct (dispatch cfg interpolate asif wall m w) as [[[e' | []] w1] t1].
    + intros R. discriminate R.
    + specialize (IH w1).
      destruct (spin cfg interpolate asif wall sched None w1) as [[r w2] t2].
      unfold world_of, result_of, events_of in *. cbn [fst snd] in *.
      intros R. rewrite (IH R). reflexivity.
Qed.

Lemma latest_nominal_unchanged (init : Q * Q) (sched : list message) :
  no_nom_policy sched = true -> latest_nominal init sched = init.
Proof.
  unfold no_nom_policy, latest_nominal.
  induction sched as [ | m sched IH]; [reflexivity | ].
  cbn [forallb fold_left]. intros H. apply andb_prop in H. destruct H as [Hm Hs].
  destruct m; try discriminate Hm; exact (IH Hs).
Qed.

Lemma latest_nominal_last (init : Q * Q) (s1 s2 : list message) (msg : Twist) :
  no_nom_policy s2 = true ->
  latest_nominal init (s1 ++ NomPolicy msg :: s2) = (vx (linear msg), vz (angular msg)).
Proof.
  intros H. unfold latest_nominal. rewrite fold_left_app. cbn [fold_left].
  apply (latest_nominal_unchanged _ _ H).
Qed.

Lemma SafetyFilter_init_policy (files : Files) (n0 : SafetyFilter) :
  SafetyFilter_init cfg files = inr n0 ->
  nominal_policy n0 = (fst (U_MIN cfg), 0)
  /\ state n0 = INITIAL_STATE cfg
  /\ (if USE_REFINECBF cfg then vf_table n0 = INITIAL_CBF cfg
      else files (PRECOMPUTED_CBF_FILENAME cfg) = Some (FNpy (vf_table n0))).
Proof.
  unfold SafetyFilter_init. destruct (USE_REFINECBF cfg).
  - intros H. injection H as <-. repeat split.
  - destruct (files (PRECOMPUTED_CBF_FILENAME cfg)) as [ [c | rs] | ];
      intros H; try discriminate H.
    injection H as <-. repeat split.
Qed.

(** C7: with refinement disabled the node starts on the table of the
    precomputed file and, whatever is delivered (notifications included),
    keeps it installed and makes every lookup and corrector call on it; with
    refinement enabled a false notification changes nothing and a true one
    installs the table held by ./log/cbf.npy. *)
Theorem certificate_updates_follow_flag :
  (USE_REFINECBF cfg = false ->
   forall (files : Files) (n0 : SafetyFilter) (k : nat)
          (sched : list message) (stop : option exn),
     SafetyFilter_init cfg files = inr n0 ->
     files (PRECOMPUTED_CBF_FILENAME cfg) = Some (FNpy (vf_table n0))
     /\ vf_table (node (world_of (spin cfg interpolate asif wall sched stop
                                       (mk_world n0 files k)))) = vf_table n0
     /\ Forall (fun c => fst (fst (fst c)) = vf_table n0)
               (corrector_calls (events_of (spin cfg interpolate asif wall sched stop
                                                 (mk_world n0 files k))))
     /\ Forall (fun v => v = interpolate (vf_table n0) (state n0))
               (safety_values (events_of (spin cfg interpolate asif wall sched stop
                                               (mk_world n0 files k)))))
  /\ (USE_REFINECBF cfg = true ->
      forall w : World,
        cbf_sub_callback cfg false w = (inr tt, w, [])
        /\ forall tbl : ndarray,
             fs w "./log/cbf.npy" = Some (FNpy tbl) ->
             result_of (cbf_sub_callback cfg true w) = inr tt
             /\ vf_table (node (world_of (cbf_sub_callback cfg true w))) = tbl).
Proof.
  split.
  - intros E files n0 k sched stop I.
    destruct (SafetyFilter_init_policy files n0 I) as (_ & _ & T).
    rewrite E in T. split; [exact T | ].
    exact (spin_disabled_table sched stop (mk_world n0 files k) E).
  - intros E w. split.
    + unfold cbf_sub_callback. rewrite E. reflexivity.
    + intros tbl L.
      rewrite (cbf_sub_callback_loaded w tbl E L). split; reflexivity.
Qed.

(** C10: after any deliveries that the spin completed, the next cycle calls
    the corrector with the row [U_MIN[0], 0] when no nominal-policy message
    was among them, and otherwise with the row [linear.x, angular.z] of the
    last such message; U_MIN[0] is 0 in the shipped configuration. *)
Theorem nominal_policy_latest_message
  (files : Files) (n0 : SafetyFilter) (k : nat) (sched : list message) :
  SafetyFilter_init cfg files = inr n0 ->
  result_of (spin cfg interpolate asif wall sched None (mk_world n0 files k)) = inr tt ->
  let w' := world_of (spin cfg interpolate asif wall sched None (mk_world n0 files k)) in
  let next := corrector_calls (events_of (timer_callback cfg interpolate asif wall w')) in
  (no_nom_policy sched = true ->
   next = [(vf_table (node w'), state (node w'), 0, [[fst (U_MIN cfg); 0]])])
  /\ (forall (s1 s2 : list message) (msg : Twist),
        sched = s1 ++ NomPolicy msg :: s2 -> no_nom_policy s2 = true ->
        next = [(vf_table (node w'), state (node w'), 0,
                 [[vx (linear msg); vz (angular msg)]])])
  /\ (forall tbl stopmsg legacy, fst (U_MIN (shipped tbl stopmsg legacy)) = 0).
Proof.
  intros I R w' next. subst next.
  rewrite (proj2 (timer_callback_lookup_and_call w')). subst w'.
  rewrite (proj1 (spin_returns sched _ R)). cbn [node nominal_policy].
  rewrite (proj1 (SafetyFilter_init_policy files n0 I)).
  split; [ | split].
  - intros H. rewrite (latest_nominal_unchanged _ _ H). reflexivity.
  - intros s1 s2 msg -> H. rewrite (latest_nominal_last _ s1 s2 msg H). reflexivity.
  - reflexivity.
Qed.

(** ** Shutdown *)

Ltac run_shutdown :=
  unfold main_except_body, main_finally_body, shutdown_motors,
    lookup_DATA_FILENAME, save_data;
  run_monad.

Lemma published_controls_app (t1 t2 : list event) :
  published_controls (t1 ++ t2) = published_controls t1 ++ published_controls t2.
Proof.
  induction t1 as [ | e t1 IH]; [reflexivity | ].
  destruct e; cbn [app published_controls]; rewrite IH; reflexivity.
Qed.

Lemma saves_app (t1 t2 : list event) :
  saves (t1 ++ t2) = saves t1 ++ saves t2.
Proof.
  induction t1 as [ | e t1 IH]; [reflexivity | ].
  destruct e; cbn [app saves]; rewrite IH; reflexivity.
Qed.

(** No callback writes the telemetry file, touches the file system or
    raises KeyboardInterrupt. *)
Lemma dispatch_no_save (m : message) (w : World) :
  saves (events_of (dispatch cfg interpolate asif wall m w)) = []
  /\ fs (world_of (dispatch cfg interpolate asif wall m w)) = fs w
  /\ result_of (dispatch cfg interpolate asif wall m w) <> inl KeyboardInterrupt.
Proof.
  destruct m as [ | data | msg]; cbn [dispatch].
  - cycle_cases F; repeat split; discriminate.
  - unfold cbf_sub_callback, jnp_load.
    destruct (USE_REFINECBF cfg), data; run_monad;
      try (repeat split; discriminate).
    destruct (fs w "./log/cbf.npy") as [ [c | rs] | ]; repeat split; discriminate.
  - rewrite nom_policy_sub_callback_spec. repeat split; discriminate.
Qed.

Lemma spin_no_save (sched : list message) (stop : option exn) (w : World) :
  saves (events_of (spin cfg interpolate asif wall sched stop w)) = []
  /\ fs (world_of (spin cfg interpolate asif wall sched stop w)) = fs w.
Proof.
  revert w. induction sched as [ | m sched IH]; intros w.
  - destruct stop; split; reflexivity.
  - cbn [spin]. unfold bind.
    destruct (dispatch_no_save m w) as (Hs & Hf & _).
    destruct (dispatch cfg interpolate asif wall m w) as [[[e | []] w1] t1].
    + split; [exact Hs | exact Hf].
    + specialize (IH w1).
      destruct (spin cfg interpolate asif wall sched stop w1) as [[r w2] t2].
      unfold world_of, events_of in *. cbn [fst snd] in *.
      destruct IH as [IH1 IH2]. rewrite saves_app, Hs, IH1, IH2, Hf.
      split; reflexivity.
Qed.

(** A spin ends in KeyboardInterrupt only when it was stopped by one after
    its last delivery. *)
Lemma spin_interrupted_inv (sched : list message) (stop : option exn) (w : World) :
  result_of (spin cfg interpolate asif wall sched stop w) = inl KeyboardInterrupt ->
  result_of (spin cfg interpolate asif wall sched None w) = inr tt
  /\ world_of (spin cfg interpolate asif wall sched stop w)
     = world_of (spin cfg interpolate asif wall sched None w).
Proof.
  revert w. induction sched as [ | m sched IH]; intros w.
  - destruct stop; intros H; [split; reflexivity | discriminate H].
  - cbn [spin]. unfold bind.
    destruct (dispatch_no_save m w) as (_ & _ & Hk).
    destruct (dispatch cfg interpolate asif wall m w) as [[[e | []] w1] t1].
    + intros H. contradiction.
    + specialize (IH w1).
      destruct (spin cfg interpolate asif wall sched stop w1) as [[r w2] t2].
      destruct (spin cfg interpolate asif wall sched None w1) as [[r' w2'] t2'].
      exact IH.
Qed.

(** C3 (as the code has it): whatever the spin does and however it ends,
    also by an interrupt in the middle of a cycle, the events of [main]
    after the spin end with one publication of the shutdown message followed
    by the destruction of the node, so no cycle publishes after it; the
    shutdown message is published once, except on a keyboard interrupt,
    where the handler publishes it a first time before the [finally] block
    publishes it again. *)
Theorem main_shutdown_sequence (spinning : M unit) (w : World) :
  let body := main_try_body spinning w in
  let stopmsg := create_shutdown_message cfg in
  exists shutdown : list event,
    events_of (main_try cfg spinning w) = events_of body ++ shutdown
    /\ (exists before : list event,
          shutdown = before ++ [EvPubCmd stopmsg; EvDestroyNode])
    /\ published_controls shutdown
       = if interrupted (result_of body) then [stopmsg; stopmsg] else [stopmsg].
Proof.
  intros body stopmsg. subst body stopmsg.
  unfold main_try, try_finally, try_except.
  destruct (main_try_body spinning w) as [[r w1] t1].
  unfold result_of, events_of. cbn [fst snd].
  destruct r as [e | []].
  - destruct e; cbn [exn_eqb interrupted];
      try (run_shutdown; eexists; split; [reflexivity | ];
           split; [exists []; reflexivity | reflexivity]).
    run_shutdown. destruct (DATA_FILENAME cfg) as [f | ]; run_monad;
      rewrite <- app_assoc; eexists; (split; [reflexivity | ]);
      (split; [ | reflexivity]).
    + exists [EvLogInfo "Keyboard interrupt, shutting down." ANone;
              EvPubCmd (create_shutdown_message cfg);
              EvSaveData f (data_logger (node w1))].
      reflexivity.
    + exists [EvLogInfo "Keyboard interrupt, shutting down." ANone;
              EvPubCmd (create_shutdown_message cfg)].
      reflexivity.
  - cbn [interrupted]. run_shutdown. eexists. split; [reflexivity | ].
    split; [exists []; reflexivity | reflexivity].
Qed.

Lemma main_try_body_spin (sched : list message) (stop : option exn) (w : World) :
  result_of (main_try_body (spin cfg interpolate asif wall sched stop) w)
  = result_of (spin cfg interpolate asif wall sched stop w)
  /\ world_of (main_try_body (spin cfg interpolate asif wall sched stop) w)
     = world_of (spin cfg interpolate asif wall sched stop w)
  /\ events_of (main_try_body (spin cfg interpolate asif wall sched stop) w)
     = EvLogInfo "Starting safety filter node, shut down with CTRL+C" ANone
       :: events_of (spin cfg interpolate asif wall sched stop w).
Proof.
  unfold main_try_body, bind, emit.
  destruct (spin cfg interpolate asif wall sched stop w) as [[r w1] t1].
  repeat split.
Qed.

(** C4 (as the code has it): when DATA_FILENAME is bound, a spin ended by a
    keyboard interrupt is followed by one save that writes to that file all
    telemetry records of the node, one more than at the start for every
    timer delivery; a spin that ends in any other way (it returns, or
    another exception leaves it) is followed by no save and the file system
    is left as it was. *)
Theorem telemetry_saved_on_interrupt_only
  (f : string) (sched : list message) (stop : option exn) (w : World) :
  DATA_FILENAME cfg = Some f ->
  let body := main_try_body (spin cfg interpolate asif wall sched stop) w in
  let final := main_try cfg (spin cfg interpolate asif wall sched stop) w in
  (interrupted (result_of body) = true ->
   saves (events_of final) = [(f, data_logger (node (world_of body)))]
   /\ fs (world_of final) f = Some (FData (data_logger (node (world_of body))))
   /\ List.length (data_logger (node (world_of body)))
      = (List.length (filter is_timer sched) + List.length (data_logger (node w)))%nat)
  /\ (interrupted (result_of body) = false ->
      saves (events_of final) = [] /\ fs (world_of final) = fs w).
Proof.
  intros D body final. subst body final.
  destruct (main_try_body_spin sched stop w) as (Hr & Hw & He).
  destruct (spin_no_save sched stop w) as [Hs Hf].
  pose proof (spin_interrupted_inv sched stop w) as Hi.
  unfold main_try, try_finally, try_except.
  destruct (main_try_body (spin cfg interpolate asif wall sched stop) w) as [[r w1] t1].
  change (r = result_of (spin cfg interpolate asif wall sched stop w)) in Hr.
  change (w1 = world_of (spin cfg interpolate asif wall sched stop w)) in Hw.
  change (t1 = EvLogInfo "Starting safety filter node, shut down with CTRL+C" ANone
               :: events_of (spin cfg interpolate asif wall sched stop w)) in He.
  rewrite <- Hw in Hf. rewrite <- Hr, <- Hw in Hi.
  assert (St : saves t1 = []) by (rewrite He; exact Hs).
  unfold result_of, world_of, events_of. cbn [fst snd].
  destruct r as [e | []].
  - destruct e; cbn [exn_eqb interrupted];
      try (split; [discriminate | intros _];
           run_shutdown; rewrite saves_app, St; split; [reflexivity | exact Hf]).
    split; [intros _ | discriminate].
    run_shutdown. rewrite D. run_monad.
    rewrite !saves_app, St. cbn [saves app].
    split; [reflexivity | ]. split.
    + unfold write_file. rewrite String.eqb_refl. reflexivity.
    + destruct (Hi eq_refl) as [R W]. rewrite W.
      apply (proj2 (spin_returns sched w R)).
  - cbn [interrupted]. split; [discriminate | intros _].
    run_shutdown. rewrite saves_app, St.
    split; [reflexivity | exact Hf].
Qed.

(** Without a binding for DATA_FILENAME the interrupt handler ends in a
    NameError before it saves; the [finally] block still runs. *)
Lemma interrupt_without_file_name (sched : list message) (stop : option exn) (w : World) :
  DATA_FILENAME cfg = None ->
  interrupted (result_of (main_try_body (spin cfg interpolate asif wall sched stop) w)) = true ->
  result_of (main_try cfg (spin cfg interpolate asif wall sched stop) w) = inl NameError
  /\ saves (events_of (main_try cfg (spin cfg interpolate asif wall sched stop) w)) = [].
Proof.
  intros D.
  destruct (main_try_body_spin sched stop w) as (_ & _ & He).
  destruct (spin_no_save sched stop w) as [Hs _].
  unfold main_try, try_finally, try_except.
  destruct (main_try_body (spin cfg interpolate asif wall sched stop) w) as [[r w1] t1].
  change (t1 = EvLogInfo "Starting safety filter node, shut down with CTRL+C" ANone
               :: events_of (spin cfg interpolate asif wall sched stop w)) in He.
  assert (St : saves t1 = []) by (rewrite He; exact Hs).
  unfold result_of, events_of. cbn [fst snd].
  destruct r as [[] | []]; cbn [interrupted]; intros I; try discriminate I.
  cbn [exn_eqb]. run_shutdown. rewrite D. run_monad.
  rewrite !saves_app, St. split; reflexivity.
Qed.

End Cycle.

(** ** The properties on the sample data *)


(** C1: the file holds a 2x2x2 table while the grid resolution is
    61x61x61; the true notification is not rejected and the installed table
    is replaced by the 2x2x2 one. *)
Lemma shape_mismatch_not_rejected :
  shape table_2 <> GRID_RESOLUTION cfg_legacy
  /\ fs world_0 "./log/cbf.npy" = Some (FNpy table_2)
  /\ result_of (cbf_sub_callback cfg_legacy true world_0) = inr tt
  /\ vf_table (node (world_of (cbf_sub_callback cfg_legacy true world_0))) = table_2
  /\ vf_table (node (world_of (cbf_sub_callback cfg_legacy true world_0)))
     <> vf_table (node world_0).
Proof.
  split; [discriminate | ].
  split; [reflexivity | ]. split; [reflexivity | ]. split; [reflexivity | ].
  intros H. apply (f_equal shape) in H. discriminate H.
Qed.

Lemma cbf_sub_callback_installs_any_shape_witness :
  USE_REFINECBF cfg_legacy = true
  /\ fs world_0 "./log/cbf.npy" = Some (FNpy table_2)
  /\ result_of (cbf_sub_callback cfg_legacy true world_0) = inr tt
  /\ vf_table (node (world_of (cbf_sub_callback cfg_legacy true world_0))) = table_2.
Proof.
  split; [reflexivity | ]. split; [reflexivity | ].
  pose proof (cbf_sub_callback_installs_any_shape cfg_legacy world_0 table_2
                eq_refl eq_refl) as [R T].
  split; [rewrite R; reflexivity | exact T].
Defined.

(** C3: a keyboard interrupt with nothing delivered; the shutdown message
    goes out twice. *)
Lemma interrupt_publishes_stop_twice :
  interrupted (result_of (main_try_body spin_idle_interrupted world_0)) = true
  /\ published_controls (events_of (main_try cfg_legacy spin_idle_interrupted world_0))
     = [create_shutdown_message cfg_legacy; create_shutdown_message cfg_legacy].
Proof. split; reflexivity. Qed.

(** C4: one cycle has run and the spin returns; a telemetry record is held
    and nothing is saved. *)
Lemma normal_exit_saves_nothing :
  DATA_FILENAME cfg_logging = Some "./experiment_dataset.txt"
  /\ result_of (main_try cfg_logging spin_cycle_returns world_0) = inr tt
  /\ List.length (data_logger (node (world_of
        (main_try cfg_logging spin_cycle_returns world_0)))) = 1%nat
  /\ saves (events_of (main_try cfg_logging spin_cycle_returns world_0)) = []
  /\ fs (world_of (main_try cfg_logging spin_cycle_returns world_0))
        "./experiment_dataset.txt" = None.
Proof. repeat split. Qed.

Lemma telemetry_saved_on_interrupt_only_witness :
  DATA_FILENAME cfg_logging = Some "./experiment_dataset.txt"
  /\ interrupted (result_of (main_try_body spin_cycles_interrupted world_0)) = true
  /\ saves (events_of (main_try cfg_logging spin_cycles_interrupted world_0))
     = [("./experiment_dataset.txt",
         data_logger (node (world_of (main_try_body spin_cycles_interrupted world_0))))]
  /\ List.length (data_logger (node (world_of
        (main_try_body spin_cycles_interrupted world_0)))) = 2%nat.
Proof.
  split; [reflexivity | ]. split; [reflexivity | ].
  pose proof (proj1 (telemetry_saved_on_interrupt_only
                       cfg_logging interpolate_0 asif_nominal wall_0
                       "./experiment_dataset.txt" [Timer; Timer]
                       (Some KeyboardInterrupt) world_0 eq_refl) eq_refl) as H.
  split; [exact (proj1 H) | exact (proj2 (proj2 H))].
Defined.

Lemma usable_row_step_order_on_samples :
  steps (events_of (timer_callback cfg_legacy interpolate_0 asif_nominal wall_0 world_1))
  = [EvPubSafety (33 # 100);
     EvAsifCall table_61 (mk_state (1 # 2) 1 0) 0 [[1 # 5; 1 # 2]];
     EvPubCmd (twist_of (1 # 5) (1 # 2));
     EvAppend (mk_telemetry (1 # 2) 1 0 (33 # 100) (PyFloat (1 # 5)) (PyFloat (1 # 2))
                            (1 # 5) (1 # 2))]
  /\ steps (events_of (timer_callback cfg_legacy interpolate_0 asif_none_row wall_0 world_1))
     = [EvPubSafety (33 # 100);
        EvAsifCall table_61 (mk_state (1 # 2) 1 0) 0 [[1 # 5; 1 # 2]];
        EvPubCmd (twist_of 0 0);
        EvAppend (mk_telemetry (1 # 2) 1 0 (33 # 100) (PyFloat 0) (PyFloat 0)
                               (1 # 5) (1 # 2))].
Proof.
  split.
  - exact (proj1 (proj2 (usable_row_step_order
                           cfg_legacy interpolate_0 asif_nominal wall_0 world_1
                           [Some (1 # 5); Some (1 # 2)] [] (1 # 5) (1 # 2)
                           eq_refl eq_refl))).
  - exact (proj1 (proj2 (usable_row_step_order
                           cfg_legacy interpolate_0 asif_none_row wall_0 world_1
                           [None; None] [] 0 0 eq_refl eq_refl))).
Defined.

Lemma certificate_updates_follow_flag_witness :
  (SafetyFilter_init cfg_precomputed files_precomputed = inr node_precomputed
   /\ vf_table (node (world_of (spin cfg_precomputed interpolate_0 asif_nominal wall_0
                                  [CbfAvailability true; Timer] None
                                  (mk_world node_precomputed files_precomputed 0))))
      = table_61)
  /\ (fs world_0 "./log/cbf.npy" = Some (FNpy table_2)
      /\ cbf_sub_callback cfg_legacy false world_0 = (inr tt, world_0, [])
      /\ vf_table (node (world_of (cbf_sub_callback cfg_legacy true world_0))) = table_2).
Proof.
  split.
  - split; [reflexivity | ].
    exact (proj1 (proj2 (proj1 (certificate_updates_follow_flag
                                  cfg_precomputed interpolate_0 asif_nominal wall_0)
                               eq_refl files_precomputed node_precomputed 0%nat
                               [CbfAvailability true; Timer] None eq_refl))).
  - split; [reflexivity | ].
    pose proof (proj2 (certificate_updates_follow_flag
                         cfg_legacy interpolate_0 asif_nominal wall_0)
                      eq_refl world_0) as [H1 H2].
    split; [exact H1 | exact (proj2 (H2 table_2 eq_refl))].
Defined.

Lemma published_twist_components_witness :
  In (twist_of (1 # 5) (1 # 2))
     (published_controls
        (events_of (timer_callback cfg_legacy interpolate_0 asif_nominal wall_0 world_1)))
  /\ vy (linear (twist_of (1 # 5) (1 # 2))) = 0
  /\ vz (linear (twist_of (1 # 5) (1 # 2))) = 0
  /\ vx (angular (twist_of (1 # 5) (1 # 2))) = 0
  /\ vy (angular (twist_of (1 # 5) (1 # 2))) = 0.
Proof.
  split; [left; reflexivity | ].
  pose proof (published_twist_components
                cfg_legacy interpolate_0 asif_nominal wall_0 world_1
                (twist_of (1 # 5) (1 # 2)) (or_introl eq_refl)) as (H1 & H2 & H3 & H4 & _).
  exact (conj H1 (conj H2 (conj H3 H4))).
Defined.

Lemma nominal_policy_latest_message_witness :
  SafetyFilter_init cfg_legacy no_files = inr node_0
  /\ corrector_calls
       (events_of (timer_callback cfg_legacy interpolate_0 asif_nominal wall_0
                     (world_of (spin cfg_legacy interpolate_0 asif_nominal wall_0
                                  [CbfAvailability false] None
                                  (mk_world node_0 no_files 0)))))
     = [(table_61, mk_state (1 # 2) 1 0, 0, [[0; 0]])]
  /\ corrector_calls
       (events_of (timer_callback cfg_legacy interpolate_0 asif_nominal wall_0
                     (world_of (spin cfg_legacy interpolate_0 asif_nominal wall_0
                                  sched_demo None (mk_world node_0 no_files 0)))))
     = [(table_61, mk_state (1 # 2) 1 0, 0, [[1 # 10; - (1 # 4)]])].
Proof.
  split; [reflexivity | ]. split.
  - exact (proj1 (nominal_policy_latest_message
                    cfg_legacy interpolate_0 asif_nominal wall_0 no_files node_0 0%nat
                    [CbfAvailability false] eq_refl eq_refl) eq_refl).
  - exact (proj1 (proj2 (nominal_policy_latest_message
                           cfg_legacy interpolate_0 asif_nominal wall_0 no_files node_0
                           0%nat sched_demo eq_refl eq_refl))
                 [Timer; NomPolicy twist_1; Timer] [CbfAvailability false] twist_2
                 eq_refl eq_refl).
Defined.

(** ** Further properties of the callbacks *)

Section Further.

Variable cfg : Config.
Variable interpolate : ndarray -> State -> Q.
Variable asif : ndarray -> State -> Q -> list (list Q) -> pyval.
Variable wall : nat -> Q.

Ltac cycle_split F :=
  unfold timer_callback; run_monad;
  destruct (asif _ _ _ _) as [ | ? | ? | [ | [?|] ?] | [ | row rows] ];
  run_accessors;
  [ | | | | | | |
    fold (row_flagged cfg row);
    destruct (row_flagged cfg row) eqn:F;
    [ | destruct row as [ | [?|] [ | [?|] ?] ] ];
    run_accessors ].

(** Runs a cycle whose corrector result is known to be a matrix. *)
Ltac cycle_on H F :=
  unfold timer_callback; run_monad; rewrite H; run_accessors;
  match goal with
  | |- context [is_none (any_entries _ ?row)] =>
      fold (row_flagged cfg row);
      destruct (row_flagged cfg row) eqn:F
  end.

(** *** The failure check of line 118 *)

Lemma or_reduce_none (r : list (option Q)) (acc : option Q) :
  is_none (entry_val (or_reduce acc r))
  = forallb falsy (acc :: r) && last_is_none (acc :: r).
Proof.
  revert acc. induction r as [ | e r IH]; intros acc.
  - destruct acc as [x | ]; cbn; [apply eq_sym, andb_false_r | reflexivity].
  - cbn [or_reduce]. destruct (truthy acc) eqn:T.
    + destruct acc as [x | ]; [ | discriminate T].
      change (forallb falsy (Some x :: e :: r))
        with (negb (truthy (Some x)) && forallb falsy (e :: r)).
      rewrite T. reflexivity.
    + rewrite IH.
      change (forallb falsy (acc :: e :: r))
        with (negb (truthy acc) && forallb falsy (e :: r)).
      rewrite T. reflexivity.
Qed.

Lemma numeric_row_last (row : list (option Q)) :
  is_object_row row = false -> last_is_none row = false.
Proof.
  unfold last_is_none.
  induction row as [ | e row IH]; [reflexivity | ].
  destruct e as [x | ]; [ | discriminate].
  cbn [is_object_row existsb orb]. intros H.
  destruct row as [ | e' row']; [reflexivity | exact (IH H)].
Qed.

Lemma row_flagged_spec (row : list (option Q)) :
  row_flagged cfg row
  = numpy_any_returns_operand cfg && forallb falsy row && last_is_none row.
Proof.
  unfold row_flagged, any_entries.
  destruct (numpy_any_returns_operand cfg).
  - rewrite andb_true_r. cbn [andb].
    destruct (is_object_row row) eqn:O.
    + destruct row as [ | e r]; [discriminate O | apply or_reduce_none].
    + rewrite (numeric_row_last row O). rewrite andb_false_r. reflexivity.
  - rewrite andb_false_r. reflexivity.
Qed.

(** X1: for a corrector result that is a matrix, the cycle writes to the
    failure log exactly when numpy's [any] hands back an operand for object
    arrays, every entry of the first row is [None] or 0, and its last entry
    is [None]. *)
Theorem failure_branch_entered_iff
  (w : World) (row : list (option Q)) (rows : list (list (option Q))) :
  asif (vf_table (node w)) (state (node w)) 0 (reshape_1xn (nominal_policy (node w)))
    = PyMat (row :: rows) ->
  failure_records (events_of (timer_callback cfg interpolate asif wall w)) <> []
  <-> (numpy_any_returns_operand cfg = true
       /\ forallb falsy row = true
       /\ last_is_none row = true).
Proof.
  intros H. pose proof (row_flagged_spec row) as S.
  cycle_on H F.
  - symmetry in S.
    apply andb_prop in S. destruct S as [S L].
    apply andb_prop in S. destruct S as [N A].
    split; [intros _; repeat split; assumption | intros _; discriminate].
  - split.
    + intros R. exfalso. apply R.
      destruct row as [ | [?|] [ | [?|] ?] ]; reflexivity.
    + intros (N & A & L). rewrite N, A, L in S. discriminate S.
Qed.

(** X2: a matrix whose first row holds numbers only, the zero control
    included, is never taken for a failure: the cycle returns, publishes the
    first two numbers of the row as linear.x and angular.z, and writes
    nothing to the failure log. *)
Theorem numeric_result_passes_through
  (w : World) (a b : Q) (rest : list Q) (rows : list (list (option Q))) :
  asif (vf_table (node w)) (state (node w)) 0 (reshape_1xn (nominal_policy (node w)))
    = PyMat (map Some (a :: b :: rest) :: rows) ->
  result_of (timer_callback cfg interpolate asif wall w) = inr tt
  /\ published_controls (events_of (timer_callback cfg interpolate asif wall w))
     = [twist_of a b]
  /\ failure_records (events_of (timer_callback cfg interpolate asif wall w)) = [].
Proof.
  intros H. pose proof (numeric_row_not_flagged cfg (a :: b :: rest)) as N.
  cbn [map] in N, H.
  cycle_on H F; [discriminate N | ].
  repeat split.
Qed.

(** X3: when numpy's [any] yields a bool for object arrays, no corrector
    result makes the cycle write to the failure log or publish the fallback:
    every control message a cycle publishes is made of the first two numbers
    of the corrector's first row. *)
Theorem bool_any_no_fallback (w : World) :
  numpy_any_returns_operand cfg = false ->
  failure_records (events_of (timer_callback cfg interpolate asif wall w)) = []
  /\ forall m : Twist,
       In m (published_controls (events_of (timer_callback cfg interpolate asif wall w))) ->
       exists a b rest rows,
         asif (vf_table (node w)) (state (node w)) 0
              (reshape_1xn (nominal_policy (node w)))
         = PyMat ((Some a :: Some b :: rest) :: rows)
         /\ m = twist_of a b.
Proof.
  intros N.
  cycle_split F;
    try (rewrite (bool_any_never_flagged cfg _ N) in F; discriminate F);
    (split; [reflexivity | ]); cbn [published_controls In]; intros m M;
    try contradiction.
  destruct M as [<- | []]. eexists _, _, _, _. split; reflexivity.
Qed.

(** *** What a cycle hands out *)

(** X5: a cycle that returns has published one safety value and one control
    message and has appended one telemetry record that agrees with both: its
    safety value is the published one, its v and omega are linear.x and
    angular.z of the published message, and its state and nominal entries
    are the stored state and nominal policy. *)
Theorem returning_cycle_record (w : World) :
  result_of (timer_callback cfg interpolate asif wall w) = inr tt ->
  exists lx az : Q,
    safety_values (events_of (timer_callback cfg interpolate asif wall w))
    = [interpolate (vf_table (node w)) (state (node w))]
    /\ published_controls (events_of (timer_callback cfg interpolate asif wall w))
       = [twist_of lx az]
    /\ data_logger (node (world_of (timer_callback cfg interpolate asif wall w)))
       = data_logger (node w)
         ++ [mk_telemetry (st_x (state (node w))) (st_y (state (node w)))
                          (st_theta (state (node w)))
                          (interpolate (vf_table (node w)) (state (node w)))
                          (PyFloat lx) (PyFloat az)
                          (fst (nominal_policy (node w)))
                          (snd (nominal_policy (node w)))].
Proof.
  cycle_split F; intros R; try discriminate R; eexists _, _; repeat split.
Qed.

Lemma timer_callback_cbf (w : World) :
  cbf (node (world_of (timer_callback cfg interpolate asif wall w))) = cbf (node w).
Proof. cycle_split F; reflexivity. Qed.

Lemma timer_callback_logger (w : World) :
  exists new : list Telemetry,
    data_logger (node (world_of (timer_callback cfg interpolate asif wall w)))
    = data_logger (node w) ++ new
    /\ (List.length new <= 1)%nat.
Proof.
  cycle_split F;
    first [ exists []; split; [apply eq_sym, app_nil_r | apply Nat.le_0_l]
          | eexists [_]; split; [reflexivity | apply Nat.le_refl] ].
Qed.

(** *** Deliveries *)

Lemma cbf_sub_callback_state (data : bool) (w : World) :
  state (node (world_of (cbf_sub_callback cfg data w))) = state (node w).
Proof.
  unfold cbf_sub_callback, jnp_load.
  destruct (USE_REFINECBF cfg), data; run_monad; try reflexivity.
  destruct (fs w "./log/cbf.npy") as [ [c | rs] | ]; reflexivity.
Qed.

Lemma dispatch_state (m : message) (w : World) :
  state (node (world_of (dispatch cfg interpolate asif wall m w))) = state (node w).
Proof.
  destruct m as [ | data | msg]; cbn [dispatch].
  - apply timer_callback_frame.
  - apply cbf_sub_callback_state.
  - rewrite nom_policy_sub_callback_spec. reflexivity.
Qed.

(** X6: no delivery assigns the stored state: after any spin it is the state
    the node had before, and every corrector call of the spin was made on
    that state. *)
Theorem state_never_updated (sched : list message) (stop : option exn) (w : World) :
  state (node (world_of (spin cfg interpolate asif wall sched stop w))) = state (node w)
  /\ Forall (fun c => snd (fst (fst c)) = state (node w))
            (corrector_calls (events_of (spin cfg interpolate asif wall sched stop w))).
Proof.
  revert w. induction sched as [ | m sched IH]; intros w.
  - destruct stop; split; constructor.
  - cbn [spin]. unfold bind.
    pose proof (dispatch_state m w) as Hs.
    destruct (dispatch_lookups cfg interpolate asif wall m w) as [Hc _].
    destruct (dispatch cfg interpolate asif wall m w) as [[[e | []] w1] t1].
    + split; [exact Hs | ].
      eapply Forall_impl; [ | exact Hc]. intros c ->. reflexivity.
    + change (state (node w1) = state (node w)) in Hs.
      change (Forall (fun c => c = (vf_table (node w), state (node w), 0,
                                    reshape_1xn (nominal_policy (node w))))
                     (corrector_calls t1)) in Hc.
      specialize (IH w1). rewrite Hs in IH.
      destruct (spin cfg interpolate asif wall sched stop w1) as [[r w2] t2].
      destruct IH as [IH1 IH2].
      split; [exact IH1 | ].
      change (Forall (fun c => snd (fst (fst c)) = state (node w))
                     (corrector_calls (t1 ++ t2))).
      rewrite corrector_calls_app. apply Forall_app. split; [ | exact IH2].
      eapply Forall_impl; [ | exact Hc]. intros c ->. reflexivity.
Qed.

Lemma dispatch_table (m : message) (w : World) :
  USE_REFINECBF cfg = true ->
  result_of (dispatch cfg interpolate asif wall m w) = inr tt ->
  let w1 := world_of (dispatch cfg interpolate asif wall m w) in
  fs w1 = fs w
  /\ (is_true_notice m = true ->
      fs w "./log/cbf.npy" = Some (FNpy (vf_table (node w1)))
      /\ cbf (node w1) = Some (vf_table (node w1)))
  /\ (is_true_notice m = false ->
      vf_table (node w1) = vf_table (node w) /\ cbf (node w1) = cbf (node w)).
Proof.
  intros E. destruct m as [ | data | msg]; cbn [dispatch is_true_notice]; intros R;
    cbv zeta.
  - split; [apply timer_callback_frame | ]. split; [discriminate | intros _].
    split; [apply timer_callback_frame | apply timer_callback_cbf].
  - revert R. unfold cbf_sub_callback, jnp_load. rewrite E.
    destruct data; run_monad.
    + destruct (fs w "./log/cbf.npy") as [ [c | rs] | ]; intros R; try discriminate R.
      split; [reflexivity | ]. split; [intros _; split; reflexivity | discriminate].
    + intros _. split; [reflexivity | ]. split; [discriminate | intros _].
      split; reflexivity.
  - rewrite nom_policy_sub_callback_spec.
    split; [reflexivity | ]. split; [discriminate | intros _]. split; reflexivity.
Qed.

(** X7: with refinement enabled, after a spin that delivered all its
    messages the installed table is the one the node had before when no true
    notification was among them; otherwise it is the array that
    ./log/cbf.npy holds, and [self.cbf] holds the same array. *)
Theorem table_follows_true_notices (sched : list message) (w : World) :
  USE_REFINECBF cfg = true ->
  result_of (spin cfg interpolate asif wall sched None w) = inr tt ->
  let n' := node (world_of (spin cfg interpolate asif wall sched None w)) in
  (existsb is_true_notice sched = false ->
   vf_table n' = vf_table (node w) /\ cbf n' = cbf (node w))
  /\ (existsb is_true_notice sched = true ->
      fs w "./log/cbf.npy" = Some (FNpy (vf_table n')) /\ cbf n' = Some (vf_table n')).
Proof.
  intros E. revert w. induction sched as [ | m sched IH]; intros w.
  - intros _ n'. split; [intros _; split; reflexivity | discriminate].
  - cbn [spin existsb]. unfold bind.
    pose proof (dispatch_table m w E) as D.
    destruct (dispatch cfg interpolate asif wall m w) as [[[e | []] w1] t1].
    + intros R. discriminate R.
    + specialize (D eq_refl). cbv zeta in D.
      change (world_of (inr tt, w1, t1)) with w1 in D.
      destruct D as (Df & Dt & Dn).
      specialize (IH w1).
      destruct (spin cfg interpolate asif wall sched None w1) as [[r w2] t2].
      intros R. specialize (IH R). cbv zeta in IH.
      change (world_of (r, w2, t2)) with w2 in IH.
      change (world_of (r, w2, t1 ++ t2)) with w2. cbv zeta.
      destruct IH as [IHn IHt]. rewrite Df in IHt.
      destruct (is_true_notice m); cbn [orb].
      * destruct (Dt eq_refl) as [D1 D2].
        split; [discriminate | intros _].
        destruct (existsb is_true_notice sched).
        -- exact (IHt eq_refl).
        -- destruct (IHn eq_refl) as [I1 I2]. rewrite I1, I2. split; assumption.
      * destruct (Dn eq_refl) as [D1 D2]. rewrite <- D1, <- D2. split; assumption.
Qed.

(** X8: with refinement enabled, a true notification while ./log/cbf.npy
    does not exist ends the callback in FileNotFoundError after the log
    line; the node, its installed table included, is left as it was. *)
Theorem missing_cbf_file_keeps_table (w : World) :
  USE_REFINECBF cfg = true ->
  fs w "./log/cbf.npy" = None ->
  cbf_sub_callback cfg true w
  = (inl FileNotFoundError, w,
     [EvLogInfo "New CBF is available, loading new CBF" ANone]).
Proof.
  intros E L. unfold cbf_sub_callback, jnp_load. rewrite E. run_monad.
  rewrite L. reflexivity.
Qed.

(** X9: no delivery removes or rewrites a telemetry record: after any spin
    the store is the earlier store followed by new records, at most one for
    every timer delivery. *)
Theorem telemetry_append_only (sched : list message) (stop : option exn) (w : World) :
  exists new : list Telemetry,
    data_logger (node (world_of (spin cfg interpolate asif wall sched stop w)))
    = data_logger (node w) ++ new
    /\ (List.length new <= List.length (filter is_timer sched))%nat.
Proof.
  revert w. induction sched as [ | m sched IH]; intros w.
  - exists []. destruct stop; split; try apply eq_sym, app_nil_r; apply Nat.le_refl.
  - cbn [spin]. unfold bind.
    assert (D : exists new,
               data_logger (node (world_of (dispatch cfg interpolate asif wall m w)))
               = data_logger (node w) ++ new
               /\ (List.length new <= if is_timer m then 1 else 0)%nat).
    { destruct m as [ | data | msg]; cbn [dispatch is_timer].
      - apply timer_callback_logger.
      - exists []. split; [ | apply Nat.le_refl].
        rewrite app_nil_r. apply (cbf_sub_callback_frame cfg).
      - exists []. split; [ | apply Nat.le_refl].
        rewrite nom_policy_sub_callback_spec. apply eq_sym, app_nil_r. }
    destruct D as (new1 & D1 & D2).
    destruct (dispatch cfg interpolate asif wall m w) as [[[e | []] w1] t1].
    + exists new1. split; [exact D1 | ].
      cbn [filter]. destruct (is_timer m); cbn [List.length]; lia.
    + change (data_logger (node w1) = data_logger (node w) ++ new1) in D1.
      destruct (IH w1) as (new2 & I1 & I2).
      destruct (spin cfg interpolate asif wall sched stop w1) as [[r w2] t2].
      change (data_logger (node w2) = data_logger (node w1) ++ new2) in I1.
      exists (new1 ++ new2). split.
      * change (data_logger (node w2) = data_logger (node w) ++ new1 ++ new2).
        rewrite I1, D1, app_assoc. reflexivity.
      * rewrite length_app. cbn [filter].
        destruct (is_timer m); cbn [List.length]; lia.
Qed.

(** *** Leaving [main] *)

Ltac run_blocks :=
  unfold main_except_body, main_finally_body, shutdown_motors,
    lookup_DATA_FILENAME, save_data;
  run_monad.

(** X10: [main] hands on what ended the spin, after its shutdown blocks: a
    normal return stays one and an exception other than KeyboardInterrupt
    leaves [main] unchanged; a KeyboardInterrupt is absorbed when
    DATA_FILENAME is bound and is replaced by a NameError when it is not. *)
Theorem main_try_result (spinning : M unit) (w : World) :
  result_of (main_try cfg spinning w)
  = match result_of (main_try_body spinning w) with
    | inl KeyboardInterrupt =>
        match DATA_FILENAME cfg with
        | Some _ => inr tt
        | None => inl NameError
        end
    | r => r
    end.
Proof.
  unfold main_try, try_finally, try_except.
  destruct (main_try_body spinning w) as [[r w1] t1].
  unfold result_of. cbn [fst snd].
  destruct r as [[] | []]; cbn [exn_eqb]; run_blocks; try reflexivity.
  destruct (DATA_FILENAME cfg); reflexivity.
Qed.


(** X12: with refinement disabled and no precomputed file, the constructor
    fails and [main] ends in FileNotFoundError before its [try] statement:
    nothing is published, the shutdown message included, and no node is
    destroyed. *)
Theorem missing_precomputed_file_aborts_main
  (files : Files) (sched : list message) (stop : option exn) :
  USE_REFINECBF cfg = false ->
  files (PRECOMPUTED_CBF_FILENAME cfg) = None ->
  main cfg interpolate asif wall files sched stop = (inl FileNotFoundError, None, []).
Proof.
  intros E L. unfold main, SafetyFilter_init. rewrite E, L. reflexivity.
Qed.

(** *** The failure branch and the end of a cycle *)





(** X4: a cycle whose corrector hands back a matrix with a first row that
    the check does not flag and that does not start with two numbers ends in
    an exception where the control is converted: an IndexError when the row
    is empty or is one number, a TypeError when one of its first two entries
    is [None].  No control message has been published, nothing written to
    the failure log and no telemetry record appended. *)
Theorem unusable_row_ends_cycle
  (w : World) (row : list (option Q)) (rows : list (list (option Q))) :
  asif (vf_table (node w)) (state (node w)) 0 (reshape_1xn (nominal_policy (node w)))
    = PyMat (row :: rows) ->
  control_of_row cfg row = None ->
  result_of (timer_callback cfg interpolate asif wall w)
  = inl (match row with
         | [] | [Some _] => IndexError
         | _ => TypeError
         end)
  /\ published_controls (events_of (timer_callback cfg interpolate asif wall w)) = []
  /\ failure_records (events_of (timer_callback cfg interpolate asif wall w)) = []
  /\ data_logger (node (world_of (timer_callback cfg interpolate asif wall w)))
     = data_logger (node w).
Proof.
  intros H C. unfold control_of_row in C.
  cycle_on H F; [discriminate C | ].
  destruct row as [ | [a | ] [ | [b | ] rest] ]; try discriminate C;
    run_accessors; repeat split.
Qed.

End Further.

(** ** The further properties on the sample data *)

Lemma failure_branch_entered_iff_witness :
  numpy_any_returns_operand cfg_legacy = true
  /\ forallb falsy [None; None] = true
  /\ last_is_none [None; None] = true.
Proof.
  apply (proj1 (failure_branch_entered_iff
                  cfg_legacy interpolate_0 asif_none_row wall_0 world_1
                  [None; None] [] eq_refl)).
  intros H. discriminate H.
Defined.

Lemma numeric_result_passes_through_witness :
  result_of (timer_callback cfg_legacy interpolate_0 asif_zero wall_0 world_1) = inr tt
  /\ published_controls
       (events_of (timer_callback cfg_legacy interpolate_0 asif_zero wall_0 world_1))
     = [twist_of 0 0]
  /\ failure_records
       (events_of (timer_callback cfg_legacy interpolate_0 asif_zero wall_0 world_1))
     = [].
Proof.
  exact (numeric_result_passes_through
           cfg_legacy interpolate_0 asif_zero wall_0 world_1 0 0 [] [] eq_refl).
Defined.

Lemma bool_any_no_fallback_witness :
  numpy_any_returns_operand cfg_numpy2 = false
  /\ failure_records
       (events_of (timer_callback cfg_numpy2 interpolate_0 asif_none_row wall_0 world_1))
     = [].
Proof.
  split; [reflexivity | ].
  exact (proj1 (bool_any_no_fallback
                  cfg_numpy2 interpolate_0 asif_none_row wall_0 world_1 eq_refl)).
Defined.

Lemma returning_cycle_record_witness :
  exists lx az : Q,
    safety_values
      (events_of (timer_callback cfg_legacy interpolate_0 asif_nominal wall_0 world_1))
    = [33 # 100]
    /\ published_controls
         (events_of (timer_callback cfg_legacy interpolate_0 asif_nominal wall_0 world_1))
       = [twist_of lx az]
    /\ data_logger (node (world_of
         (timer_callback cfg_legacy interpolate_0 asif_nominal wall_0 world_1)))
       = [mk_telemetry (1 # 2) 1 0 (33 # 100) (PyFloat lx) (PyFloat az) (1 # 5) (1 # 2)].
Proof.
  exact (returning_cycle_record
           cfg_legacy interpolate_0 asif_nominal wall_0 world_1 eq_refl).
Defined.

Lemma table_follows_true_notices_witness :
  result_of (spin cfg_legacy interpolate_0 asif_nominal wall_0 sched_swap None world_0)
  = inr tt
  /\ fs world_0 "./log/cbf.npy"
     = Some (FNpy (vf_table (node (world_of
         (spin cfg_legacy interpolate_0 asif_nominal wall_0 sched_swap None world_0)))))
  /\ vf_table (node (world_of
       (spin cfg_legacy interpolate_0 asif_nominal wall_0 [Timer] None world_0)))
     = table_61.
Proof.
  split; [reflexivity | ]. split.
  - exact (proj1 (proj2 (table_follows_true_notices
                           cfg_legacy interpolate_0 asif_nominal wall_0 sched_swap world_0
                           eq_refl eq_refl) eq_refl)).
  - exact (proj1 (proj1 (table_follows_true_notices
                           cfg_legacy interpolate_0 asif_nominal wall_0 [Timer] world_0
                           eq_refl eq_refl) eq_refl)).
Defined.

Lemma missing_cbf_file_keeps_table_witness :
  fs world_no_files "./log/cbf.npy" = None
  /\ result_of (cbf_sub_callback cfg_legacy true world_no_files) = inl FileNotFoundError
  /\ world_of (cbf_sub_callback cfg_legacy true world_no_files) = world_no_files.
Proof.
  split; [reflexivity | ].
  rewrite (missing_cbf_file_keeps_table cfg_legacy world_no_files eq_refl eq_refl).
  split; reflexivity.
Defined.


Lemma missing_precomputed_file_aborts_main_witness :
  USE_REFINECBF cfg_precomputed = false
  /\ no_files (PRECOMPUTED_CBF_FILENAME cfg_precomputed) = None
  /\ main cfg_precomputed interpolate_0 asif_nominal wall_0 no_files [Timer] None
     = (inl FileNotFoundError, None, []).
Proof.
  split; [reflexivity | ]. split; [reflexivity | ].
  exact (missing_precomputed_file_aborts_main
           cfg_precomputed interpolate_0 asif_nominal wall_0 no_files [Timer] None
           eq_refl eq_refl).
Defined.

(** ** The revised claims on the sample data *)







Lemma unusable_row_ends_cycle_witness :
  control_of_row cfg_legacy [Some 1; None] = None
  /\ result_of (timer_callback cfg_legacy interpolate_0 asif_half_row wall_0 world_1)
     = inl TypeError
  /\ published_controls
       (events_of (timer_callback cfg_legacy interpolate_0 asif_half_row wall_0 world_1))
     = [].
Proof.
  split; [reflexivity | ].
  pose proof (unusable_row_ends_cycle
                cfg_legacy interpolate_0 asif_half_row wall_0 world_1
                [Some 1; None] [] eq_refl eq_refl) as (R & P & _).
  exact (conj R P).
Defined.
